(** * use-mobile-agent: WebView detection from the user-agent string

    A shallow embedding of [src/use-mobile-agent.ts].  The file holds the
    two variants of the [useMobileAgent] hook (one publishing a derived
    [combined] flag, one without it).  Both run, once after mount, four
    regular-expression tests against [navigator.userAgent || navigator.vendor]
    and store the outcome with [setIsWebView].

    Layout:
    - JavaScript strings as sequences of UTF-16 code units;
    - the fragment of ECMAScript patterns the four literals use, with an
      executable matcher and its declarative meaning;
    - the JavaScript values, [ToBoolean], [ToString] and [||] the effect
      relies on;
    - a small model of the three React hooks ([useState], [useEffect] with
      an empty dependency list, [useMemo]) as transformers of a fiber;
    - the two variants, in the modules [Combined] and [Plain];
    - the properties. *)

From Stdlib Require Import List Arith NArith Bool String Ascii Lia.
Import ListNotations.

Set Implicit Arguments.

(* ================================================================== *)
(** * JavaScript strings *)
(* ================================================================== *)

(** A JavaScript string is a finite sequence of 16-bit code units.  The
    pattern character [.] excludes U+2028 and U+2029, which are single
    code units, so bytes would not do. *)
Definition code_unit := N.
Definition jsstring := list code_unit.

(** An ASCII literal of the source as a JavaScript string. *)
Definition lit (s : string) : jsstring :=
  map N_of_ascii (list_ascii_of_string s).

(** [Substring w s]: [w] occurs in [s] as a contiguous block. *)
Definition Substring (w s : jsstring) : Prop :=
  exists a b, s = a ++ w ++ b.

(* ================================================================== *)
(** * ECMAScript patterns (the fragment used by the source) *)
(* ================================================================== *)

Module Pattern.

(** LineTerminator code points: LF, CR, LS, PS. *)
Definition is_line_terminator (c : code_unit) : bool :=
  (N.eqb c 10 || N.eqb c 13 || N.eqb c 8232 || N.eqb c 8233)%N.

(** [\d] is exactly the ten ASCII digits. *)
Definition is_digit (c : code_unit) : bool :=
  (N.leb 48 c && N.leb c 57)%N.

(** What a single pattern position can accept. *)
Inductive charset : Type :=
| CsChar (c : code_unit)          (* a pattern character, also an escaped one *)
| CsDigit                         (* \d *)
| CsDot                           (* . with no s flag *)
| CsUnion (a b : charset).        (* the members of a class [..] *)

Fixpoint cs_mem (cs : charset) (c : code_unit) : bool :=
  match cs with
  | CsChar x => N.eqb x c
  | CsDigit => is_digit c
  | CsDot => negb (is_line_terminator c)
  | CsUnion a b => cs_mem a c || cs_mem b c
  end.

Inductive regex : Type :=
| Void                            (* matches nothing; only arises as a residual *)
| Eps
| Sym (cs : charset)
| Cat (r1 r2 : regex)
| Alt (r1 r2 : regex)
| Star (r : regex).

(** [r+] *)
Definition Plus (r : regex) : regex := Cat r (Star r).

(** A run of pattern characters. *)
Fixpoint Lit (w : jsstring) : regex :=
  match w with
  | [] => Eps
  | c :: w' => Cat (Sym (CsChar c)) (Lit w')
  end.

(** ** Declarative meaning: the words a pattern matches exactly *)

Inductive lang : regex -> jsstring -> Prop :=
| L_eps : lang Eps []
| L_sym cs c : cs_mem cs c = true -> lang (Sym cs) [c]
| L_cat r1 r2 s1 s2 : lang r1 s1 -> lang r2 s2 -> lang (Cat r1 r2) (s1 ++ s2)
| L_alt_l r1 r2 s : lang r1 s -> lang (Alt r1 r2) s
| L_alt_r r1 r2 s : lang r2 s -> lang (Alt r1 r2) s
| L_star_nil r : lang (Star r) []
| L_star_app r s1 s2 : lang r s1 -> lang (Star r) s2 -> lang (Star r) (s1 ++ s2).

(** ** Executable matcher, by residuals *)

Fixpoint nullable (r : regex) : bool :=
  match r with
  | Void => false
  | Eps => true
  | Sym _ => false
  | Cat r1 r2 => nullable r1 && nullable r2
  | Alt r1 r2 => nullable r1 || nullable r2
  | Star _ => true
  end.

(** [residual c r] matches [s] exactly when [r] matches [c :: s]. *)
Fixpoint residual (c : code_unit) (r : regex) : regex :=
  match r with
  | Void => Void
  | Eps => Void
  | Sym cs => if cs_mem cs c then Eps else Void
  | Cat r1 r2 =>
      if nullable r1
      then Alt (Cat (residual c r1) r2) (residual c r2)
      else Cat (residual c r1) r2
  | Alt r1 r2 => Alt (residual c r1) (residual c r2)
  | Star r1 => Cat (residual c r1) (Star r1)
  end.

(** Does [r] match some prefix of [s]?  This is one attempt of the
    pattern at a fixed start index. *)
Fixpoint match_here (r : regex) (s : jsstring) : bool :=
  nullable r ||
  match s with
  | [] => false
  | c :: s' => match_here (residual c r) s'
  end.

(** The unanchored search of [RegExpBuiltinExec] for a pattern with no
    [g] or [y] flag: start indices 0, 1, ..., length, first success wins.
    Such a pattern neither reads nor writes [lastIndex]. *)
Fixpoint search (r : regex) (s : jsstring) : bool :=
  match_here r s ||
  match s with
  | [] => false
  | _ :: s' => search r s'
  end.

End Pattern.

(* ================================================================== *)
(** * The four pattern literals of the source *)
(* ================================================================== *)

(** [/wv/] *)
Definition re_wv : Pattern.regex := Pattern.Lit (lit "wv").

(** [/Version\/[\d.]+.*Chrome/] *)
Definition re_version_chrome : Pattern.regex :=
  Pattern.Cat (Pattern.Lit (lit "Version/"))
    (Pattern.Cat
       (Pattern.Plus
          (Pattern.Sym (Pattern.CsUnion Pattern.CsDigit (Pattern.CsChar 46%N))))
       (Pattern.Cat (Pattern.Star (Pattern.Sym Pattern.CsDot))
          (Pattern.Lit (lit "Chrome")))).

(** [/AppleWebKit/] *)
Definition re_AppleWebKit : Pattern.regex := Pattern.Lit (lit "AppleWebKit").

(** [/Safari/] *)
Definition re_Safari : Pattern.regex := Pattern.Lit (lit "Safari").

(* ================================================================== *)
(** * JavaScript values and the host environment *)
(* ================================================================== *)

(** The values a [navigator] property can hold here: a host that lacks the
    property yields [undefined]. *)
Inductive jsval : Type :=
| JSUndefined
| JSNull
| JSString (s : jsstring).

Definition ToBoolean (v : jsval) : bool :=
  match v with
  | JSString (_ :: _) => true
  | _ => false
  end.

Definition ToString (v : jsval) : jsstring :=
  match v with
  | JSUndefined => lit "undefined"
  | JSNull => lit "null"
  | JSString s => s
  end.

(** [a || b] on values: [a] when it is truthy, else [b]. *)
Definition js_or (a b : jsval) : jsval :=
  if ToBoolean a then a else b.

(** [RegExp.prototype.test]: the argument is converted with [ToString],
    then searched. *)
Definition RegExp_test (r : Pattern.regex) (v : jsval) : bool :=
  Pattern.search r (ToString v).

(** The two properties of [navigator] the effect reads. *)
Record Navigator : Type := mkNavigator {
  nav_userAgent : jsval;
  nav_vendor : jsval
}.

(** The global scope as the effect sees it: the binding [navigator] exists
    or it does not. *)
Definition Global := option Navigator.

Inductive exn : Type :=
| ReferenceError.

(** How a piece of JavaScript ends. *)
Inductive completion (A : Type) : Type :=
| Normal (a : A)
| Throw (e : exn).
Arguments Normal {A} a.
Arguments Throw {A} e.

(** Reading the identifier [navigator]. *)
Definition resolve_navigator (g : Global) : completion Navigator :=
  match g with
  | Some n => Normal n
  | None => Throw ReferenceError
  end.

(** The ambient source is unavailable: the property is [undefined] or the
    empty string. *)
Definition unavailable (v : jsval) : Prop :=
  v = JSUndefined \/ v = JSString [].

(* ================================================================== *)
(** * The three React hooks the source calls *)
(* ================================================================== *)

Module React.
Section Hooks.

(** The type of the state objects. *)
Variable A : Type.

(** An object is its identity together with its contents; [Object.is] on
    objects compares identities only. *)
Record obj : Type := mkObj {
  oid : nat;
  contents : A
}.

Definition Object_is (x y : obj) : bool := Nat.eqb (oid x) (oid y).

(** The hook cells of one mounted component, in call order, and the
    allocator of the heap it lives in. *)
Record Fiber : Type := mkFiber {
  state_cell : option obj;          (* useState: the current state *)
  effect_cell : bool;               (* useEffect(.., []): already mounted *)
  memo_cell : option (obj * obj);   (* useMemo: (dependency, value) *)
  dirty : bool;                     (* a re-render has been scheduled *)
  next_oid : nat                    (* identity of the next object *)
}.

Definition unmounted : Fiber := mkFiber None false None false 0.

(** Evaluating an object literal. *)
Definition alloc (a : A) (f : Fiber) : obj * Fiber :=
  (mkObj (next_oid f) a,
   mkFiber (state_cell f) (effect_cell f) (memo_cell f) (dirty f)
           (S (next_oid f))).

(** A render pass starts by clearing the pending-update mark. *)
Definition begin_render (f : Fiber) : Fiber :=
  mkFiber (state_cell f) (effect_cell f) (memo_cell f) false (next_oid f).

(** [useState(init)]: [init] is kept on the first render only. *)
Definition useState (init : obj) (f : Fiber) : obj * Fiber :=
  match state_cell f with
  | Some s => (s, f)
  | None =>
      (init,
       mkFiber (Some init) (effect_cell f) (memo_cell f) (dirty f) (next_oid f))
  end.

(** The setter returned by [useState]: an update with the very same object
    bails out, any other one replaces the state and schedules a render. *)
Definition setState (v : obj) (f : Fiber) : Fiber :=
  match state_cell f with
  | Some s =>
      if Object_is v s then f
      else mkFiber (Some v) (effect_cell f) (memo_cell f) true (next_oid f)
  | None => mkFiber (Some v) (effect_cell f) (memo_cell f) true (next_oid f)
  end.

(** [useEffect(cb, [])]: tells whether [cb] is to run once this render is
    committed, which is the case on the mounting render only. *)
Definition useEffect_once (f : Fiber) : bool * Fiber :=
  (negb (effect_cell f),
   mkFiber (state_cell f) true (memo_cell f) (dirty f) (next_oid f)).

(** [useMemo(compute, [dep])]. *)
Definition useMemo (compute : unit -> obj) (dep : obj) (f : Fiber)
  : obj * Fiber :=
  let recompute :=
    let v := compute tt in
    (v, mkFiber (state_cell f) (effect_cell f) (Some (dep, v)) (dirty f)
                (next_oid f)) in
  match memo_cell f with
  | Some (d, v) => if Object_is d dep then (v, f) else recompute
  | None => recompute
  end.

(** What every fiber reached from [unmounted] satisfies: identities in use
    are below the allocator, the memo cell caches its own dependency, and
    an identity names one object. *)
Definition wf (f : Fiber) : Prop :=
  (forall s, state_cell f = Some s -> oid s < next_oid f) /\
  (forall d v, memo_cell f = Some (d, v) ->
     v = d /\ oid d < next_oid f /\
     (forall s, state_cell f = Some s -> oid d = oid s -> d = s)).

(** The contents of the current state, if any. *)
Definition current (f : Fiber) : option A :=
  option_map contents (state_cell f).

End Hooks.
End React.

(* ================================================================== *)
(** * First variant: the status carries [combined] *)
(* ================================================================== *)

Module Combined.

Record WebViewStatus : Type := mkStatus {
  ios : bool;
  android : bool;
  combined : bool
}.

Definition Fiber := React.Fiber WebViewStatus.
Definition obj := React.obj WebViewStatus.

(** The argument of [useState]. *)
Definition initial : WebViewStatus :=
  {| ios := false; android := false; combined := false |}.

(** The detection proper: the two tests of the effect and the object
    literal handed to [setIsWebView], as a function of [userAgent]. *)
Definition detect (userAgent : jsval) : WebViewStatus :=
  let isAndroidWebView :=
    RegExp_test re_wv userAgent || RegExp_test re_version_chrome userAgent in
  let isIOSWebView :=
    RegExp_test re_AppleWebKit userAgent
    && negb (RegExp_test re_Safari userAgent) in
  {| ios := isIOSWebView;
     android := isAndroidWebView;
     combined := isIOSWebView && isAndroidWebView |}.

Definition setIsWebView : obj -> Fiber -> Fiber := @React.setState _.

(** The callback given to [useEffect]. *)
Definition effect (g : Global) (f : Fiber) : completion Fiber :=
  match resolve_navigator g with
  | Throw e => Throw e
  | Normal navigator =>
      let userAgent := js_or (nav_userAgent navigator) (nav_vendor navigator) in
      let '(o, f) := React.alloc (detect userAgent) f in
      Normal (setIsWebView o f)
  end.

(** One render of the hook: the object it returns, whether the effect is
    scheduled, and the fiber afterwards. *)
Definition useMobileAgent (f : Fiber) : obj * bool * Fiber :=
  let f := React.begin_render f in
  let '(init, f) := React.alloc initial f in
  let '(isWebView, f) := React.useState init f in
  let '(scheduled, f) := React.useEffect_once f in
  let '(r, f) := React.useMemo (fun _ => isWebView) isWebView f in
  (r, scheduled, f).

(** Committing a render runs the effect it scheduled. *)
Definition commit (g : Global) (scheduled : bool) (f : Fiber)
  : completion Fiber :=
  if scheduled then effect g f else Normal f.

(** The statuses returned by [n] successive renders, each committed before
    the next one starts. *)
Fixpoint lifecycle (g : Global) (n : nat) (f : Fiber)
  : completion (list WebViewStatus) :=
  match n with
  | O => Normal []
  | S n' =>
      let '(r, scheduled, f1) := useMobileAgent f in
      match commit g scheduled f1 with
      | Throw e => Throw e
      | Normal f2 =>
          match lifecycle g n' f2 with
          | Throw e => Throw e
          | Normal rs => Normal (React.contents r :: rs)
          end
      end
  end.

End Combined.

(* ================================================================== *)
(** * Second variant: [ios] and [android] only, no [useMemo] *)
(* ================================================================== *)

Module Plain.

Record WebViewStatus : Type := mkStatus {
  ios : bool;
  android : bool
}.

Definition Fiber := React.Fiber WebViewStatus.
Definition obj := React.obj WebViewStatus.

Definition initial : WebViewStatus :=
  {| ios := false; android := false |}.

Definition detect (userAgent : jsval) : WebViewStatus :=
  let isAndroidWebView :=
    RegExp_test re_wv userAgent || RegExp_test re_version_chrome userAgent in
  let isIOSWebView :=
    RegExp_test re_AppleWebKit userAgent
    && negb (RegExp_test re_Safari userAgent) in
  {| ios := isIOSWebView;
     android := isAndroidWebView |}.

Definition setIsWebView : obj -> Fiber -> Fiber := @React.setState _.

Definition effect (g : Global) (f : Fiber) : completion Fiber :=
  match resolve_navigator g with
  | Throw e => Throw e
  | Normal navigator =>
      let userAgent := js_or (nav_userAgent navigator) (nav_vendor navigator) in
      let '(o, f) := React.alloc (detect userAgent) f in
      Normal (setIsWebView o f)
  end.

Definition useMobileAgent (f : Fiber) : obj * bool * Fiber :=
  let f := React.begin_render f in
  let '(init, f) := React.alloc initial f in
  let '(isWebView, f) := React.useState init f in
  let '(scheduled, f) := React.useEffect_once f in
  (isWebView, scheduled, f).

Definition commit (g : Global) (scheduled : bool) (f : Fiber)
  : completion Fiber :=
  if scheduled then effect g f else Normal f.

Fixpoint lifecycle (g : Global) (n : nat) (f : Fiber)
  : completion (list WebViewStatus) :=
  match n with
  | O => Normal []
  | S n' =>
      let '(r, scheduled, f1) := useMobileAgent f in
      match commit g scheduled f1 with
      | Throw e => Throw e
      | Normal f2 =>
          match lifecycle g n' f2 with
          | Throw e => Throw e
          | Normal rs => Normal (React.contents r :: rs)
          end
      end
  end.

End Plain.

(* ================================================================== *)
(** * The heuristics in words *)
(* ================================================================== *)

(** A non-empty run of ASCII digits. *)
Definition digits (v : jsstring) : Prop :=
  v <> [] /\ Forall (fun c => Pattern.is_digit c = true) v.

(** A version token: a non-empty run of digits and full stops. *)
Definition version_token (v : jsstring) : Prop :=
  v <> [] /\
  Forall (fun c => Pattern.is_digit c = true \/ c = 46%N) v.

(** No line terminator (LF, CR, U+2028, U+2029) occurs in [m]. *)
Definition one_line (m : jsstring) : Prop :=
  Forall (fun c => Pattern.is_line_terminator c = false) m.

(** The legacy signature as the specification words it: [Version/], a
    version token, and [Chrome] anywhere later. *)
Definition legacy_anywhere (s : jsstring) : Prop :=
  exists a v m b,
    s = a ++ lit "Version/" ++ v ++ m ++ lit "Chrome" ++ b /\
    version_token v.

(** The same with the stretch between the version token and [Chrome]
    confined to one line. *)
Definition legacy_one_line (s : jsstring) : Prop :=
  exists a v m b,
    s = a ++ lit "Version/" ++ v ++ m ++ lit "Chrome" ++ b /\
    version_token v /\ one_line m.

(** [Version/<digits>.<digits>] with [Chrome] anywhere after the token;
    [m] is what lies between. *)
Definition version_then_Chrome (s m : jsstring) : Prop :=
  exists a d1 d2 b,
    s = a ++ lit "Version/" ++ d1 ++ [46%N] ++ d2 ++ m ++ lit "Chrome" ++ b /\
    digits d1 /\ digits d2.

(* ================================================================== *)
(** * Relating the variants, and the inputs used below *)
(* ================================================================== *)

(** Dropping the derived field turns a status of the first variant into
    one of the second. *)
Definition forget (st : Combined.WebViewStatus) : Plain.WebViewStatus :=
  {| Plain.ios := Combined.ios st; Plain.android := Combined.android st |}.

Definition map_completion {A B : Type} (h : A -> B) (c : completion A)
  : completion B :=
  match c with
  | Normal a => Normal (h a)
  | Throw e => Throw e
  end.

(** The string the tests run on, for a given [navigator]. *)
Definition effective_userAgent (n : Navigator) : jsval :=
  js_or (nav_userAgent n) (nav_vendor n).

(** The user agents of the scenario table. *)
Definition ua_android_webview : jsstring :=
  lit "Mozilla/5.0 (Linux; Android 10) AppleWebKit/537.36 (KHTML, like Gecko) Version/4.0 Chrome/66.0.3359.126 Mobile Safari/537.36 wv".

Definition ua_ios_webview : jsstring :=
  lit "Mozilla/5.0 (iPhone; CPU iPhone OS 14_0 like Mac OS X) AppleWebKit/605.1.15 (KHTML, like Gecko) Mobile/15E148".

Definition ua_ios_safari : jsstring :=
  lit "Mozilla/5.0 (iPhone; CPU iPhone OS 14_0 like Mac OS X) AppleWebKit/605.1.15 (KHTML, like Gecko) Version/14.0 Mobile/15E148 Safari/604.1".

(** [Version/4.0], a carriage return, [Chrome]. *)
Definition ua_version_CR_Chrome : jsstring :=
  lit "Version/4.0" ++ [13%N] ++ lit "Chrome".

(** [Version/4.0], a line feed, [Chrome]. *)
Definition ua_version_LF_Chrome : jsstring :=
  lit "Version/4.0" ++ [10%N] ++ lit "Chrome".

(** The same token and [Chrome] on one line. *)
Definition ua_version_Chrome : jsstring :=
  lit "Version/4.0 Chrome/66".

(* ================================================================== *)
(** * Renders under a changing environment *)
(* ================================================================== *)

Section Driver.

Variable A : Type.

(** One render of a hook, and the callback it hands to [useEffect]. *)
Variable render : React.Fiber A -> React.obj A * bool * React.Fiber A.
Variable callback : Global -> React.Fiber A -> completion (React.Fiber A).

(** One render per element of [gs], each committed in the global scope
    that element describes: the objects returned, in order, and the fiber
    left behind.  An exception thrown by the callback ends the run. *)
Fixpoint run (gs : list Global) (f : React.Fiber A)
  : completion (list (React.obj A) * React.Fiber A) :=
  match gs with
  | [] => Normal ([], f)
  | g :: gs' =>
      let '(r, scheduled, f1) := render f in
      match (if scheduled then callback g f1 else Normal f1) with
      | Throw e => Throw e
      | Normal f2 =>
          match run gs' f2 with
          | Throw e => Throw e
          | Normal (rs, f') => Normal (r :: rs, f')
          end
      end
  end.

End Driver.

Definition Combined_run : list Global -> Combined.Fiber ->
  completion (list Combined.obj * Combined.Fiber) :=
  run Combined.useMobileAgent Combined.effect.

Definition Plain_run : list Global -> Plain.Fiber ->
  completion (list Plain.obj * Plain.Fiber) :=
  run Plain.useMobileAgent Plain.effect.

(** The statuses held by the objects a run returned. *)
Definition statuses {A : Type}
  (c : completion (list (React.obj A) * React.Fiber A))
  : completion (list A) :=
  map_completion (fun x => map (@React.contents A) (fst x)) c.

(** The identities of the objects a run returned. *)
Definition identities {A : Type}
  (c : completion (list (React.obj A) * React.Fiber A))
  : completion (list nat) :=
  map_completion (fun x => map (@React.oid A) (fst x)) c.

(** The string the four tests end up reading: [userAgent] when it is a
    non-empty string, otherwise whatever [vendor] converts to. *)
Definition tested_string (n : Navigator) : jsstring :=
  match nav_userAgent n with
  | JSString (c :: s) => c :: s
  | _ => ToString (nav_vendor n)
  end.

(** Splits a goal about a fiber built by the hooks into its atoms. *)
Ltac wf_crunch :=
  unfold React.wf in *; simpl in *;
  repeat match goal with
         | |- _ /\ _ => split
         | |- forall _, _ => intro
         | H : Some _ = Some _ |- _ => injection H as H; try subst
         | H : None = Some _ |- _ => discriminate H
         | H : (_, _) = (_, _) |- _ => injection H; clear H; intros; try subst
         end;
  try reflexivity; try lia; auto.

(* ================================================================== *)
(** * Facts about the matcher *)
(* ================================================================== *)

Module PatternFacts.
Import Pattern.

Lemma lang_Void_inv s : ~ lang Void s.
Proof. intro H; inversion H. Qed.

Lemma lang_Eps_inv s : lang Eps s -> s = [].
Proof. intro H; inversion H; reflexivity. Qed.

Lemma lang_Sym_inv cs s :
  lang (Sym cs) s -> exists c, s = [c] /\ cs_mem cs c = true.
Proof. intro H; inversion H; subst; eauto. Qed.

Lemma lang_Cat_inv r1 r2 s :
  lang (Cat r1 r2) s ->
  exists s1 s2, s = s1 ++ s2 /\ lang r1 s1 /\ lang r2 s2.
Proof. intro H; inversion H; subst; eauto. Qed.

Lemma lang_Alt_inv r1 r2 s :
  lang (Alt r1 r2) s -> lang r1 s \/ lang r2 s.
Proof. intro H; inversion H; subst; auto. Qed.

(** A non-empty word of [r*] starts with a non-empty word of [r]. *)
Lemma lang_Star_cons r c s :
  lang (Star r) (c :: s) ->
  exists s1 s2, s = s1 ++ s2 /\ lang r (c :: s1) /\ lang (Star r) s2.
Proof.
  intro H.
  remember (Star r) as q eqn:Eq.
  remember (c :: s) as w eqn:Ew.
  revert c s Ew.
  induction H; intros c0 s0 Ew; try discriminate.
  injection Eq as ->.
  destruct s1 as [|x s1'].
  - simpl in Ew. apply IHlang2; auto.
  - simpl in Ew. injection Ew as -> <-.
    exists s1', s2. auto.
Qed.

Lemma nullable_lang r : nullable r = true <-> lang r [].
Proof.
  induction r; simpl.
  - split; [discriminate | intro H; inversion H].
  - split; [constructor | reflexivity].
  - split; [discriminate | intro H; inversion H].
  - rewrite andb_true_iff, IHr1, IHr2. split.
    + intros [H1 H2]. change (@nil code_unit) with (@nil code_unit ++ []).
      constructor; assumption.
    + intro H. apply lang_Cat_inv in H as (s1 & s2 & E & H1 & H2).
      symmetry in E. apply app_eq_nil in E as [-> ->]. auto.
  - rewrite orb_true_iff, IHr1, IHr2. split.
    + intros [H | H]; [apply L_alt_l | apply L_alt_r]; assumption.
    + apply lang_Alt_inv.
  - split; [constructor | reflexivity].
Qed.

Lemma residual_lang c r : forall s, lang (residual c r) s <-> lang r (c :: s).
Proof.
  induction r; intro s; simpl.
  - split; intro H; inversion H.
  - split; intro H; inversion H.
  - destruct (cs_mem cs c) eqn:M; split; intro H.
    + apply lang_Eps_inv in H as ->. constructor; assumption.
    + apply lang_Sym_inv in H as (x & E & _). injection E as _ ->. constructor.
    + inversion H.
    + apply lang_Sym_inv in H as (x & E & Hx). injection E as <- _. congruence.
  - destruct (nullable r1) eqn:N; split; intro H.
    + apply lang_Alt_inv in H as [H | H].
      * apply lang_Cat_inv in H as (s1 & s2 & -> & H1 & H2).
        apply IHr1 in H1. change (c :: s1 ++ s2) with ((c :: s1) ++ s2).
        constructor; assumption.
      * apply IHr2 in H. apply nullable_lang in N.
        change (c :: s) with ([] ++ c :: s). constructor; assumption.
    + apply lang_Cat_inv in H as (s1 & s2 & E & H1 & H2).
      destruct s1 as [|x s1'].
      * simpl in E. subst s2. apply L_alt_r. apply IHr2. assumption.
      * simpl in E. injection E as <- ->. apply L_alt_l.
        constructor; [apply IHr1 |]; assumption.
    + apply lang_Cat_inv in H as (s1 & s2 & -> & H1 & H2).
      apply IHr1 in H1. change (c :: s1 ++ s2) with ((c :: s1) ++ s2).
      constructor; assumption.
    + apply lang_Cat_inv in H as (s1 & s2 & E & H1 & H2).
      destruct s1 as [|x s1'].
      * apply nullable_lang in H1. congruence.
      * simpl in E. injection E as <- ->.
        constructor; [apply IHr1 |]; assumption.
  - split; intro H.
    + apply lang_Alt_inv in H as [H | H];
        [apply L_alt_l; apply IHr1 | apply L_alt_r; apply IHr2]; assumption.
    + apply lang_Alt_inv in H as [H | H];
        [apply L_alt_l; apply IHr1 | apply L_alt_r; apply IHr2]; assumption.
  - split; intro H.
    + apply lang_Cat_inv in H as (s1 & s2 & -> & H1 & H2).
      apply IHr in H1. change (c :: s1 ++ s2) with ((c :: s1) ++ s2).
      constructor; assumption.
    + apply lang_Star_cons in H as (s1 & s2 & -> & H1 & H2).
      constructor; [apply IHr |]; assumption.
Qed.

(** One attempt succeeds exactly when a prefix is a word of the pattern. *)
Lemma match_here_spec : forall s r,
  match_here r s = true <-> exists p q, s = p ++ q /\ lang r p.
Proof.
  induction s as [|c s IH]; intro r; simpl.
  - rewrite orb_false_r, nullable_lang. split.
    + intro H. exists [], []. auto.
    + intros (p & q & E & H). symmetry in E.
      apply app_eq_nil in E as [-> _]. assumption.
  - rewrite orb_true_iff, nullable_lang, IH. split.
    + intros [H | (p & q & -> & H)].
      * exists [], (c :: s). auto.
      * exists (c :: p), q. split; [reflexivity | apply residual_lang; assumption].
    + intros (p & q & E & H). destruct p as [|x p].
      * left; assumption.
      * simpl in E. injection E as <- ->. right.
        exists p, q. split; [reflexivity | apply residual_lang; assumption].
Qed.

(** The search succeeds exactly when some block of the string is a word
    of the pattern. *)
Lemma search_spec : forall s r,
  search r s = true <-> exists a p b, s = a ++ p ++ b /\ lang r p.
Proof.
  induction s as [|c s IH]; intro r; cbn [search].
  - rewrite orb_false_r, match_here_spec. split.
    + intros (p & q & E & H). exists [], p, q. auto.
    + intros (a & p & b & E & H). symmetry in E.
      apply app_eq_nil in E as [_ E]. apply app_eq_nil in E as [-> ->].
      exists [], []. auto.
  - rewrite orb_true_iff, IH, match_here_spec. split.
    + intros [(p & q & E & H) | (a & p & b & -> & H)].
      * exists [], p, q. auto.
      * exists (c :: a), p, b. auto.
    + intros (a & p & b & E & H). destruct a as [|x a].
      * left. exists p, b. auto.
      * simpl in E. injection E as <- ->. right. exists a, p, b. auto.
Qed.

Lemma lang_Lit : forall w s, lang (Lit w) s <-> s = w.
Proof.
  induction w as [|c w IH]; intro s; simpl.
  - split; [apply lang_Eps_inv | intros ->; constructor].
  - split.
    + intro H. apply lang_Cat_inv in H as (s1 & s2 & -> & H1 & H2).
      apply lang_Sym_inv in H1 as (x & -> & Hx). simpl in Hx.
      apply N.eqb_eq in Hx as <-. apply IH in H2 as ->. reflexivity.
    + intros ->. change (c :: w) with ([c] ++ w).
      constructor; [constructor; simpl; apply N.eqb_refl | apply IH; reflexivity].
Qed.

Lemma lang_Star_Sym cs : forall s,
  lang (Star (Sym cs)) s <-> Forall (fun c => cs_mem cs c = true) s.
Proof.
  induction s as [|c s IH].
  - split; constructor.
  - split; intro H.
    + apply lang_Star_cons in H as (s1 & s2 & -> & H1 & H2).
      apply lang_Sym_inv in H1 as (x & E & Hx). injection E as E1 E2.
      subst x s1. constructor; [assumption | apply IH; assumption].
    + inversion H; subst. change (c :: s) with ([c] ++ s).
      constructor; [constructor; assumption | apply IH; assumption].
Qed.

Lemma lang_Plus_Sym cs s :
  lang (Plus (Sym cs)) s <->
  s <> [] /\ Forall (fun c => cs_mem cs c = true) s.
Proof.
  unfold Plus. split.
  - intro H. apply lang_Cat_inv in H as (s1 & s2 & -> & H1 & H2).
    apply lang_Sym_inv in H1 as (x & -> & Hx). apply lang_Star_Sym in H2.
    split; [discriminate | constructor; assumption].
  - intros [Hne H]. destruct s as [|c s]; [congruence |].
    inversion H; subst. change (c :: s) with ([c] ++ s).
    constructor; [constructor; assumption | apply lang_Star_Sym; assumption].
Qed.

(** Searching for a run of pattern characters is the substring test. *)
Lemma search_Lit w s : search (Lit w) s = true <-> Substring w s.
Proof.
  rewrite search_spec. unfold Substring. split.
  - intros (a & p & b & -> & H). apply lang_Lit in H as ->. eauto.
  - intros (a & b & ->). exists a, w, b. split; [reflexivity |].
    apply lang_Lit; reflexivity.
Qed.

End PatternFacts.

(* ================================================================== *)
(** * The four tests, read as statements about the string *)
(* ================================================================== *)

Module TestFacts.
Import Pattern PatternFacts.

Lemma test_wv s :
  RegExp_test re_wv (JSString s) = true <-> Substring (lit "wv") s.
Proof. apply search_Lit. Qed.

Lemma test_AppleWebKit s :
  RegExp_test re_AppleWebKit (JSString s) = true <->
  Substring (lit "AppleWebKit") s.
Proof. apply search_Lit. Qed.

Lemma test_Safari s :
  RegExp_test re_Safari (JSString s) = true <-> Substring (lit "Safari") s.
Proof. apply search_Lit. Qed.

Lemma class_digit_or_stop c :
  cs_mem (CsUnion CsDigit (CsChar 46%N)) c = true <->
  (is_digit c = true \/ c = 46%N).
Proof.
  cbn [cs_mem]. rewrite orb_true_iff, N.eqb_eq. intuition congruence.
Qed.

Lemma class_dot c :
  cs_mem CsDot c = true <-> is_line_terminator c = false.
Proof. cbn [cs_mem]. apply negb_true_iff. Qed.

(** The words of [Version\/[\d.]+.*Chrome]. *)
Lemma lang_version_chrome p :
  lang re_version_chrome p <->
  exists v m,
    p = lit "Version/" ++ v ++ m ++ lit "Chrome" /\
    version_token v /\ one_line m.
Proof.
  unfold re_version_chrome. split.
  - intro H.
    apply lang_Cat_inv in H as (p1 & q1 & -> & H1 & H).
    apply lang_Cat_inv in H as (v & q2 & -> & Hv & H).
    apply lang_Cat_inv in H as (m & q3 & -> & Hm & H3).
    apply lang_Lit in H1 as ->. apply lang_Lit in H3 as ->.
    apply lang_Plus_Sym in Hv as [Hne Hv]. apply lang_Star_Sym in Hm.
    exists v, m. split; [reflexivity |]. split.
    + split; [assumption |].
      revert Hv. apply Forall_impl. intro c. apply class_digit_or_stop.
    + revert Hm. apply Forall_impl. intro c. apply class_dot.
  - intros (v & m & -> & [Hne Hv] & Hm).
    constructor; [apply lang_Lit; reflexivity |].
    constructor; [| constructor; [| apply lang_Lit; reflexivity]].
    + apply lang_Plus_Sym. split; [assumption |].
      revert Hv. apply Forall_impl. intro c. apply class_digit_or_stop.
    + apply lang_Star_Sym.
      revert Hm. apply Forall_impl. intro c. apply class_dot.
Qed.

Lemma test_version_chrome s :
  RegExp_test re_version_chrome (JSString s) = true <-> legacy_one_line s.
Proof.
  unfold RegExp_test, legacy_one_line. simpl ToString.
  rewrite search_spec. split.
  - intros (a & p & b & -> & H).
    apply lang_version_chrome in H as (v & m & -> & Hv & Hm).
    exists a, v, m, b. repeat rewrite <- app_assoc. auto.
  - intros (a & v & m & b & -> & Hv & Hm).
    exists a, (lit "Version/" ++ v ++ m ++ lit "Chrome"), b. split.
    + repeat rewrite <- app_assoc. reflexivity.
    + apply lang_version_chrome. eauto.
Qed.

(** A digit run followed by a full stop and a digit run is a version
    token. *)
Lemma digits_stop_digits d1 d2 :
  digits d1 -> digits d2 -> version_token (d1 ++ [46%N] ++ d2).
Proof.
  intros [N1 F1] [N2 F2]. split.
  - destruct d1; [congruence | discriminate].
  - apply Forall_app. split; [| apply Forall_app; split].
    + revert F1. apply Forall_impl. auto.
    + constructor; auto.
    + revert F2. apply Forall_impl. auto.
Qed.

(** The android flag of either variant, as a statement about the string. *)
Lemma android_flag s :
  (RegExp_test re_wv (JSString s)
   || RegExp_test re_version_chrome (JSString s)) = true <->
  Substring (lit "wv") s \/ legacy_one_line s.
Proof.
  rewrite orb_true_iff, test_wv, test_version_chrome. reflexivity.
Qed.

(** The ios flag of either variant, as a statement about the string. *)
Lemma ios_flag s :
  (RegExp_test re_AppleWebKit (JSString s)
   && negb (RegExp_test re_Safari (JSString s))) = true <->
  Substring (lit "AppleWebKit") s /\ ~ Substring (lit "Safari") s.
Proof.
  rewrite andb_true_iff, negb_true_iff, test_AppleWebKit.
  rewrite <- test_Safari, not_true_iff_false. reflexivity.
Qed.

(** A block of a block is a block. *)
Lemma Substring_trans u w s : Substring u w -> Substring w s -> Substring u s.
Proof.
  intros (a & b & ->) (c & d & ->).
  exists (c ++ a), (b ++ d). repeat rewrite <- app_assoc. reflexivity.
Qed.

End TestFacts.

(** ** The tests on small inputs *)

Example wv_is_case_sensitive :
  RegExp_test re_wv (JSString (lit "Android; Wv")) = false
  /\ RegExp_test re_wv (JSString (lit "Android; wv)")) = true.
Proof. split; reflexivity. Qed.

Example version_needs_a_token :
  RegExp_test re_version_chrome (JSString (lit "Version/Chrome")) = false
  /\ RegExp_test re_version_chrome (JSString (lit "Version/4Chrome")) = true
  /\ RegExp_test re_version_chrome (JSString (lit "Version/4.0 Mobile Chrome/66"))
     = true
  /\ RegExp_test re_version_chrome (JSString (lit "Chrome/66 Version/4.0"))
     = false.
Proof. repeat split; reflexivity. Qed.

Example dot_stops_at_line_terminators :
  map (fun c => RegExp_test re_version_chrome
                  (JSString (lit "Version/1." ++ [c] ++ lit "Chrome")))
      [10; 13; 8232; 8233; 9; 32]%N
  = [false; false; false; false; true; true].
Proof. reflexivity. Qed.

Example undefined_reads_as_text :
  ToString (js_or JSUndefined JSUndefined) = lit "undefined"
  /\ js_or (JSString []) (JSString (lit "Google Inc.")) = JSString (lit "Google Inc.")
  /\ js_or (JSString (lit "UA")) (JSString (lit "Google Inc.")) = JSString (lit "UA").
Proof. repeat split; reflexivity. Qed.

(* ================================================================== *)
(** * The hooks preserve the fiber invariant *)
(* ================================================================== *)

Lemma wf_unmounted (A : Type) : React.wf (React.unmounted A).
Proof. split; simpl; intros; discriminate. Qed.

(** A fresh object differs from everything the memo cell holds. *)
Lemma memo_fresh (A : Type) (me : option (React.obj A * React.obj A))
      (st : option (React.obj A)) (no : nat) (a : A) :
  (forall d v, me = Some (d, v) ->
     v = d /\ React.oid d < no /\
     (forall s, st = Some s -> React.oid d = React.oid s -> d = s)) ->
  forall d v, me = Some (d, v) ->
    v = d /\ React.oid d < S no /\
    (forall s, Some (React.mkObj no a) = Some s ->
       React.oid d = React.oid s -> d = s).
Proof.
  intros Hm d v E. destruct (Hm d v E) as (-> & Hd & _).
  repeat split; [lia |]. intros s [= <-]. simpl. lia.
Qed.

Module CombinedFacts.
Import React Combined.

(** A render returns the current state object, or a fresh object holding
    [initial] on the mounting render, and schedules the effect on the
    mounting render only. *)
Lemma combined_render_spec (f : Fiber) :
  wf f ->
  forall r scheduled f',
    useMobileAgent f = (r, scheduled, f') ->
    wf f' /\ scheduled = negb (effect_cell f) /\ effect_cell f' = true /\
    state_cell f' = Some r /\ dirty f' = false /\
    match state_cell f with
    | Some s => r = s
    | None => contents r = initial
    end.
Proof.
  destruct f as [st ef me di no]. unfold wf; simpl.
  intros [Hs Hm] r scheduled f'.
  unfold useMobileAgent, useMemo, useState, useEffect_once, alloc,
    begin_render, Object_is; simpl.
  destruct st as [s|]; destruct me as [[d v]|]; simpl.
  - destruct (Hm d v eq_refl) as (-> & Hd & Hu).
    specialize (Hs s eq_refl).
    destruct (Nat.eqb (oid d) (oid s)) eqn:E;
      intro H; injection H as <- <- <-; simpl.
    + apply Nat.eqb_eq in E. specialize (Hu s eq_refl E). subst d.
      wf_crunch.
    + wf_crunch.
  - specialize (Hs s eq_refl). intro H; injection H as <- <- <-. wf_crunch.
  - destruct (Hm d v eq_refl) as (-> & Hd & Hu).
    destruct (Nat.eqb (oid d) no) eqn:E;
      intro H; injection H as <- <- <-; simpl.
    + apply Nat.eqb_eq in E. lia.
    + wf_crunch.
  - intro H; injection H as <- <- <-. wf_crunch.
Qed.

(** With [navigator] bound, the effect completes normally; afterwards the
    state holds the detection on [userAgent || vendor], a render is
    scheduled, and the other cells are as before. *)
Lemma combined_effect_spec (n : Navigator) (f : Fiber) :
  wf f ->
  exists f',
    effect (Some n) f = Normal f' /\ wf f' /\
    current f' = Some (detect (effective_userAgent n)) /\
    dirty f' = true /\
    effect_cell f' = effect_cell f /\ memo_cell f' = memo_cell f.
Proof.
  destruct f as [st ef me di no]. intros [Hs Hm].
  unfold effect, setIsWebView, setState, alloc, Object_is, current;
    simpl in *.
  pose proof (memo_fresh (detect (effective_userAgent n)) Hm) as Hfresh.
  destruct st as [s|]; simpl.
  - specialize (Hs s eq_refl).
    replace (Nat.eqb no (oid s)) with false
      by (symmetry; apply Nat.eqb_neq; lia).
    eexists; split; [reflexivity |].
    split; [split; [intros ? [= <-]; simpl; lia | exact Hfresh] | repeat split].
  - eexists; split; [reflexivity |].
    split; [split; [intros ? [= <-]; simpl; lia | exact Hfresh] | repeat split].
Qed.

(** Once mounted, every render returns the contents of the state. *)
Lemma combined_lifecycle_steady (g : Global) (n : nat) : forall (f : Fiber) s,
  wf f -> effect_cell f = true -> state_cell f = Some s ->
  lifecycle g n f = Normal (repeat (contents s) n).
Proof.
  induction n as [|n IH]; intros f s W E S; [reflexivity |].
  cbn [lifecycle repeat].
  destruct (useMobileAgent f) as [[r scheduled] f1] eqn:R.
  destruct (combined_render_spec W R) as (W1 & -> & E1 & S1 & _ & Hr).
  rewrite S in Hr. subst r. rewrite E. simpl.
  rewrite (IH f1 s W1 E1 S1). reflexivity.
Qed.

(** From mount on: [initial] first, the detection ever after. *)
Lemma combined_lifecycle_mount (n : Navigator) (k : nat) :
  lifecycle (Some n) (S k) (unmounted _) =
  Normal (initial :: repeat (detect (effective_userAgent n)) k).
Proof.
  cbn [lifecycle].
  destruct (useMobileAgent (unmounted _)) as [[r scheduled] f1] eqn:R.
  destruct (combined_render_spec (wf_unmounted _) R) as (W1 & -> & E1 & S1 & _ & Hr).
  simpl in Hr. simpl negb. cbn [commit].
  destruct (combined_effect_spec n W1) as (f2 & -> & W2 & C2 & _ & E2 & _).
  unfold current in C2. destruct (state_cell f2) as [s|] eqn:S2; [| discriminate].
  injection C2 as C2. rewrite E1 in E2.
  rewrite (combined_lifecycle_steady (Some n) k W2 E2 S2), Hr, C2. reflexivity.
Qed.

End CombinedFacts.

Module PlainFacts.
Import React Plain.

Lemma plain_render_spec (f : Fiber) :
  wf f ->
  forall r scheduled f',
    useMobileAgent f = (r, scheduled, f') ->
    wf f' /\ scheduled = negb (effect_cell f) /\ effect_cell f' = true /\
    state_cell f' = Some r /\ dirty f' = false /\
    match state_cell f with
    | Some s => r = s
    | None => contents r = initial
    end.
Proof.
  destruct f as [st ef me di no]. unfold wf; simpl.
  intros [Hs Hm] r scheduled f'.
  unfold useMobileAgent, useState, useEffect_once, alloc, begin_render; simpl.
  destruct st as [s|]; simpl; intro H; injection H as <- <- <-.
  - specialize (Hs s eq_refl).
    split; [split | repeat split]; simpl.
    + intros ? [= <-]. lia.
    + intros d v E. destruct (Hm d v E) as (-> & Hd & Hu).
      repeat split; [lia | exact Hu].
  - pose proof (memo_fresh initial Hm) as Hfresh.
    split; [split; [intros ? [= <-]; simpl; lia | exact Hfresh] | repeat split].
Qed.

Lemma plain_effect_spec (n : Navigator) (f : Fiber) :
  wf f ->
  exists f',
    effect (Some n) f = Normal f' /\ wf f' /\
    current f' = Some (detect (effective_userAgent n)) /\
    dirty f' = true /\
    effect_cell f' = effect_cell f /\ memo_cell f' = memo_cell f.
Proof.
  destruct f as [st ef me di no]. intros [Hs Hm].
  unfold effect, setIsWebView, setState, alloc, Object_is, current;
    simpl in *.
  pose proof (memo_fresh (detect (effective_userAgent n)) Hm) as Hfresh.
  destruct st as [s|]; simpl.
  - specialize (Hs s eq_refl).
    replace (Nat.eqb no (oid s)) with false
      by (symmetry; apply Nat.eqb_neq; lia).
    eexists; split; [reflexivity |].
    split; [split; [intros ? [= <-]; simpl; lia | exact Hfresh] | repeat split].
  - eexists; split; [reflexivity |].
    split; [split; [intros ? [= <-]; simpl; lia | exact Hfresh] | repeat split].
Qed.

Lemma plain_lifecycle_steady (g : Global) (n : nat) : forall (f : Fiber) s,
  wf f -> effect_cell f = true -> state_cell f = Some s ->
  lifecycle g n f = Normal (repeat (contents s) n).
Proof.
  induction n as [|n IH]; intros f s W E S; [reflexivity |].
  cbn [lifecycle repeat].
  destruct (useMobileAgent f) as [[r scheduled] f1] eqn:R.
  destruct (plain_render_spec W R) as (W1 & -> & E1 & S1 & _ & Hr).
  rewrite S in Hr. subst r. rewrite E. simpl.
  rewrite (IH f1 s W1 E1 S1). reflexivity.
Qed.

Lemma plain_lifecycle_mount (n : Navigator) (k : nat) :
  lifecycle (Some n) (S k) (unmounted _) =
  Normal (initial :: repeat (detect (effective_userAgent n)) k).
Proof.
  cbn [lifecycle].
  destruct (useMobileAgent (unmounted _)) as [[r scheduled] f1] eqn:R.
  destruct (plain_render_spec (wf_unmounted _) R) as (W1 & -> & E1 & S1 & _ & Hr).
  simpl in Hr. simpl negb. cbn [commit].
  destruct (plain_effect_spec n W1) as (f2 & -> & W2 & C2 & _ & E2 & _).
  unfold current in C2. destruct (state_cell f2) as [s|] eqn:S2; [| discriminate].
  injection C2 as C2. rewrite E1 in E2.
  rewrite (plain_lifecycle_steady (Some n) k W2 E2 S2), Hr, C2. reflexivity.
Qed.

End PlainFacts.

(* ================================================================== *)
(** * Properties of the detection *)
(* ================================================================== *)

(** C1, as worded, fails: [Version/4.0], a carriage return, then [Chrome]
    has the legacy signature with [Chrome] later in the string and no [wv],
    yet the android flag is false, because [.] does not cross a line
    terminator. *)
Lemma C1_counterexample :
  ~ (Combined.android (Combined.detect (JSString ua_version_CR_Chrome)) = true
     <->
     Substring (lit "wv") ua_version_CR_Chrome
     \/ legacy_anywhere ua_version_CR_Chrome).
Proof.
  intros [_ H].
  assert (L : legacy_anywhere ua_version_CR_Chrome).
  { exists [], (lit "4.0"), [13%N], []. split; [reflexivity |].
    split; [discriminate |].
    repeat (apply Forall_cons || apply Forall_nil);
      first [left; reflexivity | right; reflexivity]. }
  specialize (H (or_intror L)). vm_compute in H. discriminate H.
Qed.

(** C1 (amended): for every string [s], in both variants, the android flag
    is true if and only if [s] contains [wv], or contains [Version/]
    followed by a non-empty run of digits and full stops, then any stretch
    free of line terminators, then [Chrome]. *)
Theorem C1_android_iff (s : jsstring) :
  (Combined.android (Combined.detect (JSString s)) = true
   <-> Substring (lit "wv") s \/ legacy_one_line s)
  /\
  (Plain.android (Plain.detect (JSString s)) = true
   <-> Substring (lit "wv") s \/ legacy_one_line s).
Proof.
  split; exact (TestFacts.android_flag s).
Qed.

(** C2: for every string [s], in both variants, the ios flag is true if and
    only if [s] contains [AppleWebKit] and does not contain [Safari]; so it
    is false whenever both occur, in whatever order, and in particular
    whenever the fused token [AppleWebKitSafari] occurs. *)
Theorem C2_ios_iff (s : jsstring) :
  (Combined.ios (Combined.detect (JSString s)) = true
   <-> Substring (lit "AppleWebKit") s /\ ~ Substring (lit "Safari") s)
  /\
  (Plain.ios (Plain.detect (JSString s)) = true
   <-> Substring (lit "AppleWebKit") s /\ ~ Substring (lit "Safari") s)
  /\
  (Substring (lit "AppleWebKit") s -> Substring (lit "Safari") s ->
   Combined.ios (Combined.detect (JSString s)) = false
   /\ Plain.ios (Plain.detect (JSString s)) = false)
  /\
  (Substring (lit "AppleWebKitSafari") s ->
   Combined.ios (Combined.detect (JSString s)) = false
   /\ Plain.ios (Plain.detect (JSString s)) = false).
Proof.
  pose proof (TestFacts.ios_flag s) as I.
  assert (B : Substring (lit "Safari") s ->
              (RegExp_test re_AppleWebKit (JSString s)
               && negb (RegExp_test re_Safari (JSString s))) = false).
  { intro S. apply not_true_iff_false. intro T. apply I in T. tauto. }
  split; [exact I |]. split; [exact I |]. split.
  - intros _ S. split; exact (B S).
  - intro F.
    assert (S : Substring (lit "Safari") s).
    { apply TestFacts.Substring_trans with (w := lit "AppleWebKitSafari");
        [| exact F].
      exists (lit "AppleWebKit"), []. reflexivity. }
    split; exact (B S).
Qed.

(** C2 at a string holding the fused token. *)
Lemma C2_witness :
  Substring (lit "AppleWebKitSafari") (lit "Mozilla AppleWebKitSafari/1")
  /\ Combined.ios
       (Combined.detect (JSString (lit "Mozilla AppleWebKitSafari/1"))) = false.
Proof.
  assert (F : Substring (lit "AppleWebKitSafari")
                        (lit "Mozilla AppleWebKitSafari/1")).
  { exists (lit "Mozilla "), (lit "/1"). reflexivity. }
  split; [exact F |].
  exact (proj1 (proj2 (proj2 (proj2
           (C2_ios_iff (lit "Mozilla AppleWebKitSafari/1")))) F)).
Defined.

(** With both properties unavailable the tests run on the empty string or
    on the text [undefined], and neither sets a flag. *)
Lemma unavailable_detect (n : Navigator) :
  unavailable (nav_userAgent n) -> unavailable (nav_vendor n) ->
  Combined.detect (effective_userAgent n) = Combined.mkStatus false false false
  /\ Plain.detect (effective_userAgent n) = Plain.mkStatus false false.
Proof.
  destruct n as [u v]. unfold effective_userAgent; simpl.
  intros [-> | ->] [-> | ->]; split; vm_compute; reflexivity.
Qed.

(** C3: when [navigator.userAgent] and [navigator.vendor] are each
    undefined or empty, the effect of either variant completes normally (it
    throws nothing) on every reachable fiber and leaves the all-false
    status in the state, and every render of the hook returns the all-false
    status. *)
Theorem C3_unavailable_source (n : Navigator) :
  unavailable (nav_userAgent n) -> unavailable (nav_vendor n) ->
  (forall f, React.wf f ->
     exists f', Combined.effect (Some n) f = Normal f'
                /\ React.current f' = Some (Combined.mkStatus false false false))
  /\
  (forall f, React.wf f ->
     exists f', Plain.effect (Some n) f = Normal f'
                /\ React.current f' = Some (Plain.mkStatus false false))
  /\
  (forall k, Combined.lifecycle (Some n) k (React.unmounted _)
             = Normal (repeat (Combined.mkStatus false false false) k))
  /\
  (forall k, Plain.lifecycle (Some n) k (React.unmounted _)
             = Normal (repeat (Plain.mkStatus false false) k)).
Proof.
  intros U V. destruct (unavailable_detect n U V) as [DC DP].
  split; [| split; [| split]].
  - intros f W.
    destruct (CombinedFacts.combined_effect_spec n W) as (f' & E & _ & C & _).
    exists f'. rewrite <- DC. auto.
  - intros f W.
    destruct (PlainFacts.plain_effect_spec n W) as (f' & E & _ & C & _).
    exists f'. rewrite <- DP. auto.
  - intros [|k]; [reflexivity |].
    rewrite CombinedFacts.combined_lifecycle_mount, DC. reflexivity.
  - intros [|k]; [reflexivity |].
    rewrite PlainFacts.plain_lifecycle_mount, DP. reflexivity.
Qed.

(** C3 at a host whose [userAgent] is undefined and whose [vendor] is
    empty, three renders from mount. *)
Lemma C3_witness :
  unavailable JSUndefined /\ unavailable (JSString []) /\
  Combined.lifecycle (Some (mkNavigator JSUndefined (JSString []))) 3
                     (React.unmounted _)
  = Normal (repeat (Combined.mkStatus false false false) 3).
Proof.
  assert (U : unavailable JSUndefined) by (left; reflexivity).
  assert (V : unavailable (JSString [])) by (right; reflexivity).
  split; [exact U |]. split; [exact V |].
  exact (proj1 (proj2 (proj2
           (C3_unavailable_source (mkNavigator JSUndefined (JSString [])) U V)))
           3).
Defined.

(** Every status a mounted hook of the first variant returns is [initial]
    or a detection. *)
Lemma Combined_lifecycle_shape (g : Global) (k : nat) rs :
  Combined.lifecycle g k (React.unmounted _) = Normal rs ->
  Forall (fun st => st = Combined.initial \/ exists v, st = Combined.detect v)
         rs.
Proof.
  destruct k as [|k]; [intros [= <-]; constructor |].
  destruct g as [n|]; [| discriminate].
  rewrite CombinedFacts.combined_lifecycle_mount. intros [= <-].
  constructor; [left; reflexivity |].
  apply Forall_forall. intros st H. apply repeat_spec in H. right. eauto.
Qed.

(** C4: in the variant with [combined], that field is the conjunction of
    [ios] and [android] of the same status, for the status detected from any
    input and for every status a render of the hook returns. *)
Theorem C4_combined_is_and :
  (forall v : jsval,
     Combined.combined (Combined.detect v)
     = Combined.ios (Combined.detect v) && Combined.android (Combined.detect v))
  /\
  (forall (g : Global) (k : nat) rs,
     Combined.lifecycle g k (React.unmounted _) = Normal rs ->
     Forall (fun st => Combined.combined st
                       = Combined.ios st && Combined.android st) rs).
Proof.
  split; [reflexivity |].
  intros g k rs H. apply Combined_lifecycle_shape in H.
  revert H. apply Forall_impl. intros st [-> | [v ->]]; reflexivity.
Qed.

(** C4 on two renders of a hook mounted on the Android WebView agent. *)
Lemma C4_witness :
  Forall (fun st => Combined.combined st
                    = Combined.ios st && Combined.android st)
         [Combined.mkStatus false false false;
          Combined.mkStatus false true false].
Proof.
  exact (proj2 C4_combined_is_and
           (Some (mkNavigator (JSString ua_android_webview) JSUndefined)) 2
           [Combined.mkStatus false false false;
            Combined.mkStatus false true false]
           eq_refl).
Defined.

(** C5, as worded, fails: in [Version/4.0], a line feed, [Chrome], the
    word [Chrome] does appear after the version token [4.0], and the
    android flag is false. *)
Lemma C5_counterexample :
  ~ (version_then_Chrome ua_version_LF_Chrome [10%N] ->
     Combined.android (Combined.detect (JSString ua_version_LF_Chrome)) = true).
Proof.
  intro H.
  assert (V : version_then_Chrome ua_version_LF_Chrome [10%N]).
  { exists [], (lit "4"), (lit "0"), []. split; [reflexivity |].
    split; (split; [discriminate | repeat constructor]). }
  specialize (H V). vm_compute in H. discriminate H.
Qed.

(** C5 (amended): in both variants, every string containing [wv] has the
    android flag set; and so has every string containing
    [Version/<digits>.<digits>] with [Chrome] after the version token,
    provided no line terminator lies between the token and [Chrome]. *)
Theorem C5_android_sufficient (s : jsstring) :
  (Substring (lit "wv") s ->
   Combined.android (Combined.detect (JSString s)) = true
   /\ Plain.android (Plain.detect (JSString s)) = true)
  /\
  (forall m, version_then_Chrome s m -> one_line m ->
   Combined.android (Combined.detect (JSString s)) = true
   /\ Plain.android (Plain.detect (JSString s)) = true).
Proof.
  pose proof (TestFacts.android_flag s) as A.
  split.
  - intro W. split; apply A; left; exact W.
  - intros m (a & d1 & d2 & b & E & D1 & D2) M.
    assert (L : legacy_one_line s).
    { exists a, (d1 ++ [46%N] ++ d2), m, b. split; [| split].
      - rewrite E. repeat rewrite <- app_assoc. reflexivity.
      - apply TestFacts.digits_stop_digits; assumption.
      - exact M. }
    split; apply A; right; exact L.
Qed.

(** C5 at [Version/4.0 Chrome/66], where a space separates the token from
    [Chrome]. *)
Lemma C5_witness :
  version_then_Chrome ua_version_Chrome [32%N] /\ one_line [32%N] /\
  Combined.android (Combined.detect (JSString ua_version_Chrome)) = true.
Proof.
  assert (V : version_then_Chrome ua_version_Chrome [32%N]).
  { exists [], (lit "4"), (lit "0"), (lit "/66"). split; [reflexivity |].
    split; (split; [discriminate | repeat constructor]). }
  assert (M : one_line [32%N]) by (repeat constructor).
  split; [exact V |]. split; [exact M |].
  exact (proj1 (proj2 (C5_android_sufficient ua_version_Chrome) [32%N] V M)).
Defined.

(** C6: the four scenarios of the table, in both variants: the Android
    WebView agent ending in [wv], the iOS agent with [AppleWebKit] and no
    [Safari], the iOS Safari agent, and the empty string. *)
Theorem C6_scenarios :
  Combined.detect (JSString ua_android_webview)
    = Combined.mkStatus false true false
  /\ Combined.detect (JSString ua_ios_webview)
    = Combined.mkStatus true false false
  /\ Combined.detect (JSString ua_ios_safari)
    = Combined.mkStatus false false false
  /\ Combined.detect (JSString [])
    = Combined.mkStatus false false false
  /\ Plain.detect (JSString ua_android_webview) = Plain.mkStatus false true
  /\ Plain.detect (JSString ua_ios_webview) = Plain.mkStatus true false
  /\ Plain.detect (JSString ua_ios_safari) = Plain.mkStatus false false
  /\ Plain.detect (JSString []) = Plain.mkStatus false false.
Proof.
  repeat split; vm_compute; reflexivity.
Qed.

(** The second variant's detection is the first one's with [combined]
    dropped. *)
Lemma detect_forget (v : jsval) : Plain.detect v = forget (Combined.detect v).
Proof. reflexivity. Qed.

(** C7: the two variants compute the same [ios] and [android] flags on
    every input, and every render of the second returns what the same
    render of the first returns with [combined] dropped, exceptions
    included. *)
Theorem C7_variants_agree :
  (forall v : jsval,
     Plain.ios (Plain.detect v) = Combined.ios (Combined.detect v)
     /\ Plain.android (Plain.detect v) = Combined.android (Combined.detect v))
  /\
  (forall (g : Global) (k : nat),
     Plain.lifecycle g k (React.unmounted _)
     = map_completion (map forget)
         (Combined.lifecycle g k (React.unmounted _))).
Proof.
  split; [intro v; split; reflexivity |].
  intros g [|k]; [reflexivity |].
  destruct g as [n|]; [| reflexivity].
  rewrite PlainFacts.plain_lifecycle_mount, CombinedFacts.combined_lifecycle_mount.
  cbn [map_completion map]. rewrite map_repeat. reflexivity.
Qed.

(** The detection reads its argument through [ToString] only. *)
Lemma detect_ToString (v1 v2 : jsval) :
  ToString v1 = ToString v2 ->
  Combined.detect v1 = Combined.detect v2 /\ Plain.detect v1 = Plain.detect v2.
Proof.
  intro E. unfold Combined.detect, Plain.detect, RegExp_test.
  rewrite E. split; reflexivity.
Qed.

(** C8: the detection is a function of the string alone.  Two values
    with the same string give equal statuses; the status the effect stores
    depends neither on the fiber it runs in nor on anything of [navigator]
    but that string; the effect writes the state and nothing else of the
    hook (effect and memo cells are as before); and running it a second
    time stores the same status again. *)
Theorem C8_detection_is_pure :
  (forall v1 v2 : jsval,
     ToString v1 = ToString v2 -> Combined.detect v1 = Combined.detect v2)
  /\
  (forall (n1 n2 : Navigator) (f1 f2 : Combined.Fiber),
     React.wf f1 -> React.wf f2 ->
     ToString (effective_userAgent n1) = ToString (effective_userAgent n2) ->
     exists f1' f2',
       Combined.effect (Some n1) f1 = Normal f1'
       /\ Combined.effect (Some n2) f2 = Normal f2'
       /\ React.current f1' = React.current f2'
       /\ React.effect_cell f1' = React.effect_cell f1
       /\ React.memo_cell f1' = React.memo_cell f1)
  /\
  (forall (n : Navigator) (f : Combined.Fiber),
     React.wf f ->
     exists f' f'',
       Combined.effect (Some n) f = Normal f'
       /\ Combined.effect (Some n) f' = Normal f''
       /\ React.current f'' = React.current f').
Proof.
  split; [| split].
  - intros v1 v2 E. apply detect_ToString. exact E.
  - intros n1 n2 f1 f2 W1 W2 E.
    destruct (CombinedFacts.combined_effect_spec n1 W1) as (f1' & E1 & _ & C1 & _ & K1 & M1).
    destruct (CombinedFacts.combined_effect_spec n2 W2) as (f2' & E2 & _ & C2 & _).
    exists f1', f2'. repeat split; try assumption.
    rewrite C1, C2. f_equal. apply detect_ToString. exact E.
  - intros n f W.
    destruct (CombinedFacts.combined_effect_spec n W) as (f' & E1 & W' & C1 & _).
    destruct (CombinedFacts.combined_effect_spec n W') as (f'' & E2 & _ & C2 & _).
    exists f', f''. repeat split; try assumption. congruence.
Qed.

(** C8 at two hosts that expose the same string in different properties,
    one hook unmounted, the other already rendered once. *)
Lemma C8_witness :
  exists f1' f2',
    Combined.effect (Some (mkNavigator (JSString (lit "x wv")) JSUndefined))
                    (React.unmounted _) = Normal f1'
    /\ Combined.effect (Some (mkNavigator (JSString []) (JSString (lit "x wv"))))
                       (snd (Combined.useMobileAgent (React.unmounted _)))
       = Normal f2'
    /\ React.current f1' = React.current f2'
    /\ React.effect_cell f1' = false
    /\ React.memo_cell f1' = None.
Proof.
  refine (proj1 (proj2 C8_detection_is_pure)
            (mkNavigator (JSString (lit "x wv")) JSUndefined)
            (mkNavigator (JSString []) (JSString (lit "x wv")))
            (React.unmounted _)
            (snd (Combined.useMobileAgent (React.unmounted _)))
            (wf_unmounted _) _ eq_refl).
  split; simpl.
  - intros s [= <-]. simpl. lia.
  - intros d v [= <- <-]. simpl. repeat split; [lia |].
    intros s [= <-] _. reflexivity.
Defined.

(** C9: when [userAgent] is the empty string and [vendor] a non-empty
    string [v], the effect of either variant stores the detection on [v];
    so a [vendor] containing [wv] sets the android flag. *)
Theorem C9_vendor_fallback (n : Navigator) (v : jsstring) :
  nav_userAgent n = JSString [] -> nav_vendor n = JSString v -> v <> [] ->
  (forall f, React.wf f ->
     exists f', Combined.effect (Some n) f = Normal f'
                /\ React.current f' = Some (Combined.detect (JSString v)))
  /\
  (forall f, React.wf f ->
     exists f', Plain.effect (Some n) f = Normal f'
                /\ React.current f' = Some (Plain.detect (JSString v)))
  /\
  (Substring (lit "wv") v ->
   Combined.android (Combined.detect (effective_userAgent n)) = true
   /\ Plain.android (Plain.detect (effective_userAgent n)) = true).
Proof.
  intros U V _.
  assert (E : effective_userAgent n = JSString v).
  { unfold effective_userAgent, js_or. rewrite U, V. reflexivity. }
  split; [| split].
  - intros f W.
    destruct (CombinedFacts.combined_effect_spec n W) as (f' & Ef & _ & C & _).
    exists f'. rewrite <- E. auto.
  - intros f W.
    destruct (PlainFacts.plain_effect_spec n W) as (f' & Ef & _ & C & _).
    exists f'. rewrite <- E. auto.
  - intro S. rewrite E. split; apply TestFacts.android_flag; left; exact S.
Qed.

(** C9 at an empty [userAgent] and the [vendor] string [x wv]. *)
Lemma C9_witness :
  exists f',
    Combined.effect (Some (mkNavigator (JSString []) (JSString (lit "x wv"))))
                    (React.unmounted _) = Normal f'
    /\ React.current f' = Some (Combined.mkStatus false true false).
Proof.
  refine (proj1 (@C9_vendor_fallback
                   (mkNavigator (JSString []) (JSString (lit "x wv")))
                   (lit "x wv") eq_refl eq_refl _)
            (React.unmounted _) (wf_unmounted _)).
  discriminate.
Defined.

(** C10: whatever [navigator] holds, the first render of either variant
    returns the all-false status and schedules the effect; committing it
    stores the detection and schedules a render; and every later render
    returns the detection. *)
Theorem C10_first_render_all_false (n : Navigator) (k : nat) :
  Combined.lifecycle (Some n) (S k) (React.unmounted _)
  = Normal (Combined.mkStatus false false false
            :: repeat (Combined.detect (effective_userAgent n)) k)
  /\
  Plain.lifecycle (Some n) (S k) (React.unmounted _)
  = Normal (Plain.mkStatus false false
            :: repeat (Plain.detect (effective_userAgent n)) k)
  /\
  (exists r f1 f2,
     Combined.useMobileAgent (React.unmounted _) = (r, true, f1)
     /\ React.contents r = Combined.mkStatus false false false
     /\ Combined.commit (Some n) true f1 = Normal f2
     /\ React.dirty f2 = true
     /\ React.current f2 = Some (Combined.detect (effective_userAgent n)))
  /\
  (exists r f1 f2,
     Plain.useMobileAgent (React.unmounted _) = (r, true, f1)
     /\ React.contents r = Plain.mkStatus false false
     /\ Plain.commit (Some n) true f1 = Normal f2
     /\ React.dirty f2 = true
     /\ React.current f2 = Some (Plain.detect (effective_userAgent n))).
Proof.
  split; [apply CombinedFacts.combined_lifecycle_mount |].
  split; [apply PlainFacts.plain_lifecycle_mount |].
  split; do 3 eexists; repeat split.
Qed.

(* ================================================================== *)
(** * Further properties of the hook *)
(* ================================================================== *)

Section DriverFacts.

Variable A : Type.
Variable init : A.
Variable render : React.Fiber A -> React.obj A * bool * React.Fiber A.
Variable callback : Global -> React.Fiber A -> completion (React.Fiber A).

Hypothesis render_ok : forall f,
  React.wf f ->
  forall r scheduled f',
    render f = (r, scheduled, f') ->
    React.wf f' /\ scheduled = negb (React.effect_cell f)
    /\ React.effect_cell f' = true
    /\ React.state_cell f' = Some r /\ React.dirty f' = false
    /\ match React.state_cell f with
       | Some s => r = s
       | None => React.contents r = init
       end.

(** Once mounted, a run returns the state object at every render, never
    calls the callback, and leaves the state where it was. *)
Lemma run_steady : forall (gs : list Global) (f : React.Fiber A) s,
  React.wf f -> React.effect_cell f = true -> React.state_cell f = Some s ->
  exists f',
    run render callback gs f = Normal (repeat s (List.length gs), f')
    /\ React.wf f' /\ React.effect_cell f' = true
    /\ React.state_cell f' = Some s
    /\ (gs <> [] -> React.dirty f' = false).
Proof.
  induction gs as [|g gs IH]; intros f s W E S.
  - exists f. split; [reflexivity |].
    split; [exact W |]. split; [exact E |]. split; [exact S |].
    intro H. contradiction H. reflexivity.
  - cbn [run List.length repeat].
    destruct (render f) as [[r scheduled] f1] eqn:R.
    destruct (render_ok W R) as (W1 & -> & E1 & S1 & D1 & Hr).
    rewrite S in Hr. subst r. rewrite E. cbn [negb].
    destruct (IH f1 s W1 E1 S1) as (f' & Hrun & W' & E' & S' & D').
    rewrite Hrun. exists f'. split; [reflexivity |].
    split; [exact W' |]. split; [exact E' |]. split; [exact S' |].
    intros _. destruct gs as [|g' gs'].
    + cbn [run] in Hrun. injection Hrun as <-. exact D1.
    + apply D'. discriminate.
Qed.

End DriverFacts.

(** The fiber of the first variant once the mounting render is committed
    under [n]: object 0 is the initial status, object 1 the detection. *)
Lemma Combined_run_mount (n : Navigator) (gs : list Global) :
  exists f',
    Combined_run (Some n :: gs) (React.unmounted _)
    = Normal (React.mkObj 0 Combined.initial
              :: repeat (React.mkObj 1 (Combined.detect (effective_userAgent n)))
                        (List.length gs),
              f')
    /\ React.effect_cell f' = true
    /\ React.dirty f' = match gs with [] => true | _ :: _ => false end.
Proof.
  set (o0 := React.mkObj 0 Combined.initial).
  set (o1 := React.mkObj 1 (Combined.detect (effective_userAgent n))).
  set (f2 := React.mkFiber (Some o1) true (Some (o0, o0)) true 2).
  assert (W : React.wf f2).
  { split; simpl.
    - intros s [= <-]. simpl. lia.
    - intros d v [= <- <-]. repeat split; [simpl; lia |].
      intros s [= <-]. simpl. discriminate. }
  destruct (@run_steady _ Combined.initial Combined.useMobileAgent
              Combined.effect (@CombinedFacts.combined_render_spec)
              gs f2 o1 W eq_refl eq_refl) as (f' & Hrun & _ & E' & _ & D').
  exists f'. unfold Combined_run. cbn [run].
  change (Combined.useMobileAgent (React.unmounted Combined.WebViewStatus))
    with (o0, true, React.mkFiber (Some o0) true (Some (o0, o0)) false 1).
  cbv iota beta.
  change (Combined.effect (Some n)
            (React.mkFiber (Some o0) true (Some (o0, o0)) false 1))
    with (Normal f2).
  cbv iota beta. rewrite Hrun. split; [reflexivity |]. split; [exact E' |].
  destruct gs as [|g gs'].
  - cbn [run] in Hrun. injection Hrun as <-. reflexivity.
  - apply D'. discriminate.
Qed.

(** The same for the second variant, which has no memo cell. *)
Lemma Plain_run_mount (n : Navigator) (gs : list Global) :
  exists f',
    Plain_run (Some n :: gs) (React.unmounted _)
    = Normal (React.mkObj 0 Plain.initial
              :: repeat (React.mkObj 1 (Plain.detect (effective_userAgent n)))
                        (List.length gs),
              f')
    /\ React.effect_cell f' = true
    /\ React.dirty f' = match gs with [] => true | _ :: _ => false end.
Proof.
  set (o0 := React.mkObj 0 Plain.initial).
  set (o1 := React.mkObj 1 (Plain.detect (effective_userAgent n))).
  set (f2 := React.mkFiber (Some o1) true None true 2).
  assert (W : React.wf f2).
  { split; simpl.
    - intros s [= <-]. simpl. lia.
    - intros d v [=]. }
  destruct (@run_steady _ Plain.initial Plain.useMobileAgent
              Plain.effect (@PlainFacts.plain_render_spec)
              gs f2 o1 W eq_refl eq_refl) as (f' & Hrun & _ & E' & _ & D').
  exists f'. unfold Plain_run. cbn [run].
  change (Plain.useMobileAgent (React.unmounted Plain.WebViewStatus))
    with (o0, true, React.mkFiber (Some o0) true None false 1).
  cbv iota beta.
  change (Plain.effect (Some n) (React.mkFiber (Some o0) true None false 1))
    with (Normal f2).
  cbv iota beta. rewrite Hrun. split; [reflexivity |]. split; [exact E' |].
  destruct gs as [|g gs'].
  - cbn [run] in Hrun. injection Hrun as <-. reflexivity.
  - apply D'. discriminate.
Qed.

(** The driver of this section and [lifecycle] agree where they overlap:
    a constant environment. *)
Lemma Combined_lifecycle_run (g : Global) (k : nat) : forall f,
  Combined.lifecycle g k f = statuses (Combined_run (repeat g k) f).
Proof.
  unfold Combined_run.
  induction k as [|k IH]; intro f; [reflexivity |].
  cbn [Combined.lifecycle repeat run].
  destruct (Combined.useMobileAgent f) as [[r scheduled] f1].
  unfold Combined.commit.
  destruct scheduled.
  - destruct (Combined.effect g f1) as [f2|e]; [| reflexivity].
    rewrite IH.
    destruct (run Combined.useMobileAgent Combined.effect (repeat g k) f2)
      as [[rs f']|e]; reflexivity.
  - rewrite IH.
    destruct (run Combined.useMobileAgent Combined.effect (repeat g k) f1)
      as [[rs f']|e]; reflexivity.
Qed.

Lemma Plain_lifecycle_run (g : Global) (k : nat) : forall f,
  Plain.lifecycle g k f = statuses (Plain_run (repeat g k) f).
Proof.
  unfold Plain_run.
  induction k as [|k IH]; intro f; [reflexivity |].
  cbn [Plain.lifecycle repeat run].
  destruct (Plain.useMobileAgent f) as [[r scheduled] f1].
  unfold Plain.commit.
  destruct scheduled.
  - destruct (Plain.effect g f1) as [f2|e]; [| reflexivity].
    rewrite IH.
    destruct (run Plain.useMobileAgent Plain.effect (repeat g k) f2)
      as [[rs f']|e]; reflexivity.
  - rewrite IH.
    destruct (run Plain.useMobileAgent Plain.effect (repeat g k) f1)
      as [[rs f']|e]; reflexivity.
Qed.

(** X1: the user agent is read once.  Mounted under [n], either variant
    returns the all-false status at the first render and the detection on
    [n] at every later one, whatever the global scope has become by then:
    a changed or even unbound [navigator] is never looked at again. *)
Theorem X1_userAgent_read_once (n : Navigator) (gs : list Global) :
  statuses (Combined_run (Some n :: gs) (React.unmounted _))
  = Normal (Combined.mkStatus false false false
            :: repeat (Combined.detect (effective_userAgent n))
                      (List.length gs))
  /\
  statuses (Plain_run (Some n :: gs) (React.unmounted _))
  = Normal (Plain.mkStatus false false
            :: repeat (Plain.detect (effective_userAgent n)) (List.length gs)).
Proof.
  destruct (Combined_run_mount n gs) as (fc & -> & _).
  destruct (Plain_run_mount n gs) as (fp & -> & _).
  unfold statuses. cbn [map_completion fst map React.contents].
  rewrite !map_repeat. split; reflexivity.
Qed.

(** X2: the returned object changes identity exactly once.  In either
    variant the first render returns one object and every later render
    returns one and the same other object; the identities are the same in
    both variants, so [useMemo] over the state object adds nothing. *)
Theorem X2_returned_object_stable (n : Navigator) (gs : list Global) :
  (exists r0 r1 f',
     Combined_run (Some n :: gs) (React.unmounted _)
     = Normal (r0 :: repeat r1 (List.length gs), f')
     /\ React.Object_is r0 r1 = false)
  /\
  (exists r0 r1 f',
     Plain_run (Some n :: gs) (React.unmounted _)
     = Normal (r0 :: repeat r1 (List.length gs), f')
     /\ React.Object_is r0 r1 = false)
  /\
  identities (Combined_run (Some n :: gs) (React.unmounted _))
  = identities (Plain_run (Some n :: gs) (React.unmounted _)).
Proof.
  destruct (Combined_run_mount n gs) as (fc & Hc & _).
  destruct (Plain_run_mount n gs) as (fp & Hp & _).
  split; [| split].
  - do 3 eexists. split; [exact Hc | reflexivity].
  - do 3 eexists. split; [exact Hp | reflexivity].
  - rewrite Hc, Hp. unfold identities.
    cbn [map_completion fst map React.oid]. rewrite !map_repeat. reflexivity.
Qed.

(** X3: the hook settles after one re-render.  Committing the mounting
    render leaves an update pending; once a second render has happened no
    update is pending and the effect stays mounted, however many renders
    follow. *)
Theorem X3_one_rerender (n : Navigator) (g : Global) (gs : list Global) :
  (exists rs f', Combined_run [Some n] (React.unmounted _) = Normal (rs, f')
                 /\ React.dirty f' = true)
  /\
  (exists rs f', Combined_run (Some n :: g :: gs) (React.unmounted _)
                 = Normal (rs, f')
                 /\ React.dirty f' = false /\ React.effect_cell f' = true)
  /\
  (exists rs f', Plain_run [Some n] (React.unmounted _) = Normal (rs, f')
                 /\ React.dirty f' = true)
  /\
  (exists rs f', Plain_run (Some n :: g :: gs) (React.unmounted _)
                 = Normal (rs, f')
                 /\ React.dirty f' = false /\ React.effect_cell f' = true).
Proof.
  destruct (Combined_run_mount n []) as (c1 & Hc1 & _ & Dc1).
  destruct (Combined_run_mount n (g :: gs)) as (c2 & Hc2 & Ec2 & Dc2).
  destruct (Plain_run_mount n []) as (p1 & Hp1 & _ & Dp1).
  destruct (Plain_run_mount n (g :: gs)) as (p2 & Hp2 & Ep2 & Dp2).
  repeat split; do 2 eexists; eauto.
Qed.


(** What [ToString (userAgent || vendor)] comes to. *)
Lemma ToString_effective (n : Navigator) :
  ToString (effective_userAgent n) = tested_string n.
Proof.
  destruct n as [u v]. unfold effective_userAgent, js_or, tested_string.
  cbn [nav_userAgent nav_vendor].
  destruct u as [| |[|c s]]; reflexivity.
Qed.

(** X5: which property is tested.  On every reachable fiber the effect of
    either variant stores the detection on [userAgent] when that is a
    non-empty string, whatever [vendor] holds; in every other case
    ([userAgent] undefined, null or empty) it stores the detection on the
    text of [vendor], an undefined or null [vendor] being read as the words
    [undefined] and [null]. *)
Theorem X5_userAgent_precedence
        (n : Navigator) (fc : Combined.Fiber) (fp : Plain.Fiber) :
  React.wf fc -> React.wf fp ->
  (exists f', Combined.effect (Some n) fc = Normal f'
              /\ React.current f'
                 = Some (Combined.detect (JSString (tested_string n))))
  /\
  (exists f', Plain.effect (Some n) fp = Normal f'
              /\ React.current f'
                 = Some (Plain.detect (JSString (tested_string n)))).
Proof.
  intros Wc Wp.
  assert (E : ToString (effective_userAgent n)
              = ToString (JSString (tested_string n)))
    by apply ToString_effective.
  destruct (detect_ToString _ _ E) as [Dc Dp].
  destruct (CombinedFacts.combined_effect_spec n Wc) as (c' & Ec & _ & Cc & _).
  destruct (PlainFacts.plain_effect_spec n Wp) as (p' & Ep & _ & Cp & _).
  split; [exists c' | exists p']; split; congruence.
Qed.

(** X5 at a host whose [userAgent] is null and whose [vendor] holds [wv]:
    the vendor is what gets tested. *)
Lemma X5_witness :
  exists f',
    Combined.effect (Some (mkNavigator JSNull (JSString (lit "a wv b"))))
                    (React.unmounted _) = Normal f'
    /\ React.current f' = Some (Combined.mkStatus false true false).
Proof.
  exact (proj1 (@X5_userAgent_precedence
                  (mkNavigator JSNull (JSString (lit "a wv b")))
                  (React.unmounted _) (React.unmounted _)
                  (wf_unmounted _) (wf_unmounted _))).
Defined.

(** A successful search stays successful inside any larger string. *)
Lemma search_context (r : Pattern.regex) (a s b : jsstring) :
  Pattern.search r s = true -> Pattern.search r (a ++ s ++ b) = true.
Proof.
  rewrite !PatternFacts.search_spec. intros (a' & p & b' & -> & H).
  exists (a ++ a'), p, (b' ++ b). split; [| exact H].
  repeat rewrite <- app_assoc. reflexivity.
Qed.

(** X6: how the flags react to surrounding text.  In either variant a set
    android flag survives any text put before and after the string; an
    occurrence of [Safari] keeps the ios flag clear under any such
    extension; and a set ios flag survives exactly the extensions that
    bring in no [Safari]. *)
Theorem X6_flags_under_extension (a s b : jsstring) :
  (Combined.android (Combined.detect (JSString s)) = true ->
   Combined.android (Combined.detect (JSString (a ++ s ++ b))) = true
   /\ Plain.android (Plain.detect (JSString (a ++ s ++ b))) = true)
  /\
  (Substring (lit "Safari") s ->
   Combined.ios (Combined.detect (JSString (a ++ s ++ b))) = false
   /\ Plain.ios (Plain.detect (JSString (a ++ s ++ b))) = false)
  /\
  (Combined.ios (Combined.detect (JSString s)) = true ->
   (Combined.ios (Combined.detect (JSString (a ++ s ++ b))) = true
    <-> ~ Substring (lit "Safari") (a ++ s ++ b))).
Proof.
  split; [| split].
  - intro H.
    assert (G : (RegExp_test re_wv (JSString (a ++ s ++ b))
                 || RegExp_test re_version_chrome (JSString (a ++ s ++ b)))
                = true).
    { change (RegExp_test re_wv (JSString s)
              || RegExp_test re_version_chrome (JSString s) = true) in H.
      apply orb_true_iff in H. apply orb_true_iff.
      destruct H as [H | H]; [left | right]; apply search_context; exact H. }
    split; exact G.
  - intro S.
    assert (S' : Substring (lit "Safari") (a ++ s ++ b)).
    { apply TestFacts.Substring_trans with (w := s); [exact S |].
      exists a, b. reflexivity. }
    assert (G : (RegExp_test re_AppleWebKit (JSString (a ++ s ++ b))
                 && negb (RegExp_test re_Safari (JSString (a ++ s ++ b))))
                = false).
    { apply not_true_iff_false. intro T.
      apply TestFacts.ios_flag in T. tauto. }
    split; exact G.
  - intro H.
    change ((RegExp_test re_AppleWebKit (JSString s)
             && negb (RegExp_test re_Safari (JSString s))) = true) in H.
    apply TestFacts.ios_flag in H as [K _].
    assert (K' : Substring (lit "AppleWebKit") (a ++ s ++ b)).
    { apply TestFacts.Substring_trans with (w := s); [exact K |].
      exists a, b. reflexivity. }
    change (Combined.ios (Combined.detect (JSString (a ++ s ++ b))))
      with (RegExp_test re_AppleWebKit (JSString (a ++ s ++ b))
            && negb (RegExp_test re_Safari (JSString (a ++ s ++ b)))).
    rewrite TestFacts.ios_flag. tauto.
Qed.

(** X6 on the iOS WebView agent: appending [ Safari/604.1] clears the ios
    flag it had. *)
Lemma X6_witness :
  Combined.ios (Combined.detect (JSString ua_ios_webview)) = true
  /\ ~ (Combined.ios
          (Combined.detect
             (JSString ([] ++ ua_ios_webview ++ lit " Safari/604.1"))) = true).
Proof.
  split; [reflexivity |].
  intro T.
  apply (proj2 (proj2 (X6_flags_under_extension
                         [] ua_ios_webview (lit " Safari/604.1")))
           eq_refl) in T.
  apply T. exists (ua_ios_webview ++ lit " "), (lit "/604.1").
  reflexivity.
Defined.

(** X7: the two flags are independent.  Every pair of values of [ios] and
    [android] is the detection of some string, in both variants; in the
    first variant [combined] is then their conjunction, so it is true for
    some strings. *)
Theorem X7_flags_independent (i a : bool) :
  exists s : jsstring,
    Combined.detect (JSString s) = Combined.mkStatus i a (i && a)
    /\ Plain.detect (JSString s) = Plain.mkStatus i a.
Proof.
  destruct i, a.
  - exists (lit "AppleWebKit wv"). split; reflexivity.
  - exists (lit "AppleWebKit"). split; reflexivity.
  - exists (lit "wv"). split; reflexivity.
  - exists []. split; reflexivity.
Qed.

(** X8: what [combined] says about the string.  It is true exactly when
    the string contains [AppleWebKit], does not contain [Safari], and
    contains [wv] or the one-line legacy signature; so any string that
    contains [Safari] has [combined] false. *)
Theorem X8_combined_on_strings (s : jsstring) :
  (Combined.combined (Combined.detect (JSString s)) = true
   <-> Substring (lit "AppleWebKit") s /\ ~ Substring (lit "Safari") s
       /\ (Substring (lit "wv") s \/ legacy_one_line s))
  /\
  (Substring (lit "Safari") s ->
   Combined.combined (Combined.detect (JSString s)) = false).
Proof.
  assert (I : Combined.combined (Combined.detect (JSString s)) = true
              <-> Substring (lit "AppleWebKit") s /\ ~ Substring (lit "Safari") s
                  /\ (Substring (lit "wv") s \/ legacy_one_line s)).
  { change (Combined.combined (Combined.detect (JSString s)))
      with ((RegExp_test re_AppleWebKit (JSString s)
             && negb (RegExp_test re_Safari (JSString s)))
            && (RegExp_test re_wv (JSString s)
                || RegExp_test re_version_chrome (JSString s))).
    rewrite andb_true_iff, TestFacts.ios_flag, TestFacts.android_flag.
    tauto. }
  split; [exact I |].
  intro S. apply not_true_iff_false. intro T. apply I in T. tauto.
Qed.

(** X8 on the Android WebView agent of the scenario table, which carries
    [Safari]. *)
Lemma X8_witness :
  Substring (lit "Safari") ua_android_webview
  /\ Combined.combined (Combined.detect (JSString ua_android_webview)) = false.
Proof.
  assert (S : Substring (lit "Safari") ua_android_webview).
  { exists (lit "Mozilla/5.0 (Linux; Android 10) AppleWebKit/537.36 (KHTML, like Gecko) Version/4.0 Chrome/66.0.3359.126 Mobile "),
           (lit "/537.36 wv").
    reflexivity. }
  split; [exact S |].
  exact (proj2 (X8_combined_on_strings ua_android_webview) S).
Defined.
